(** * GitDB: JSON records stored in a git repository

    A verification model of [src/database.py].  The class [GitDB] keeps
    one JSON document per file and commits the repository after every
    write; reads go through the commit history.

    The file follows the source top-down: Python values and the [dict]
    operations the code uses, the two library interfaces the code calls
    ([json] and the git repository), then the methods of [GitDB] in the
    order of the source, and finally the properties. *)

From stdpp Require Import gmap strings list fin_maps.
From Stdlib Require Import ZArith.

Set Default Proof Using "Type".
Set Warnings "-register-all".

(** ** Python values *)

(** What [json.loads] can return and what [json.dump] accepts: [None],
    booleans, integers, strings, lists and dictionaries with string keys.
    A dictionary is its item list in insertion order, which is the order
    [dict.keys()] iterates in.  Floating-point numbers are left out. *)
Inductive json : Type :=
  | JNull
  | JBool (b : bool)
  | JInt (n : Z)
  | JStr (s : string)
  | JArr (items : list json)
  | JObj (items : list (string * json)).

(** The exceptions that occur in the code paths of [GitDB]. *)
Inductive exn : Type :=
  | KeyError
  | GitCommandError
  | FileNotFoundError
  | BadName
  | JSONDecodeError
  | TypeError
  | AttributeError.

Global Instance exn_eq_dec : EqDecision exn.
Proof. solve_decision. Defined.

(** A Python call returns a value or raises. *)
Inductive result (A : Type) : Type :=
  | Ok (a : A)
  | Raise (e : exn).
Global Arguments Ok {A} a.
Global Arguments Raise {A} e.

(** ** [dict] operations *)

Module Dict.

Definition t : Type := list (string * json).

(** [d.get(k)] before the default is applied. *)
Fixpoint get (k : string) (d : t) : option json :=
  match d with
  | [] => None
  | (k', v) :: d' => if decide (k = k') then Some v else get k d'
  end.

(** [k in d] *)
Definition contains (k : string) (d : t) : bool :=
  match get k d with Some _ => true | None => false end.

(** [d[k] = v]: an existing key keeps its position, a new key goes last. *)
Fixpoint set (k : string) (v : json) (d : t) : t :=
  match d with
  | [] => [(k, v)]
  | (k', v') :: d' =>
      if decide (k = k') then (k, v) :: d' else (k', v') :: set k v d'
  end.

(** [del d[k]] for a key that is present; a dictionary holds a key once,
    so dropping the entries of [k] drops that one. *)
Fixpoint del (k : string) (d : t) : t :=
  match d with
  | [] => []
  | (k', v') :: d' =>
      if decide (k = k') then del k d' else (k', v') :: del k d'
  end.

(** [list(d.keys())] *)
Definition keys (d : t) : list string := d.*1.

End Dict.

(** ** The operators of the source on arbitrary loaded values

    [_load_file] returns whatever [json.loads] produced, which need not
    be a dictionary; each operator below does what Python does on every
    kind of value. *)

(** [sub in s] on strings: substring test. *)
Fixpoint str_contains (sub s : string) : bool :=
  if String.prefix sub s then true
  else match s with
       | EmptyString => false
       | String _ s' => str_contains sub s'
       end.

(** [x == k] for a string [k]. *)
Definition json_eq_str (k : string) (x : json) : bool :=
  match x with
  | JStr s => bool_decide (s = k)
  | _ => false
  end.

(** [record_id in data] *)
Definition py_contains (k : string) (data : json) : result bool :=
  match data with
  | JObj d => Ok (Dict.contains k d)
  | JArr l => Ok (existsb (json_eq_str k) l)
  | JStr s => Ok (str_contains k s)
  | JNull | JBool _ | JInt _ => Raise TypeError
  end.

(** [data[record_id] = record_data] *)
Definition py_setitem (k : string) (v : json) (data : json) : result json :=
  match data with
  | JObj d => Ok (JObj (Dict.set k v d))
  | _ => Raise TypeError
  end.

(** [del data[record_id]] *)
Definition py_delitem (k : string) (data : json) : result json :=
  match data with
  | JObj d => if Dict.contains k d then Ok (JObj (Dict.del k d)) else Raise KeyError
  | _ => Raise TypeError
  end.

(** [data.get(record_id)]: the default is [None]. *)
Definition py_get (k : string) (data : json) : result json :=
  match data with
  | JObj d => Ok (default JNull (Dict.get k d))
  | _ => Raise AttributeError
  end.

(** [list(data.keys())] *)
Definition py_keys (data : json) : result (list string) :=
  match data with
  | JObj d => Ok (Dict.keys d)
  | _ => Raise AttributeError
  end.

(** ** The [json] module

    [json.dump] and [json.loads] are library code.  The model takes them
    as an interface: file contents of some type [blob], a serializer, a
    parser that fails on text that is not JSON ([None] stands for the
    raised [JSONDecodeError]), and the round trip of the library on the
    values of type [json]. *)
Class JsonCodec : Type := {
  blob : Type;
  json_dumps : json → blob;
  json_loads : blob → option json;
  json_loads_dumps : ∀ j, json_loads (json_dumps j) = Some j
}.

(** A reference codec, used to run the model on concrete repositories:
    a file content is either the text of a JSON value or text that does
    not parse. *)
Inductive text : Type :=
  | Valid (j : json)
  | Garbled (raw : string).

Definition text_loads (b : text) : option json :=
  match b with
  | Valid j => Some j
  | Garbled _ => None
  end.

Definition text_codec : JsonCodec :=
  {| blob := text; json_dumps := Valid; json_loads := text_loads;
     json_loads_dumps := λ j, eq_refl |}.

(** ** The git repository *)

Section GitDB.
Context {codec : JsonCodec}.

(** A commit: the tree it records (file name to content) and its
    message. *)
Record Commit : Type := mkCommit {
  tree : gmap string blob;
  message : string
}.

(** The repository: the commits of the current branch, oldest first,
    the index (staging area) and the working directory.  A document is
    a file in the root of the repository, named by a string; record ids
    are strings, as the keys of a JSON object are. *)
Record Repo : Type := mkRepo {
  history : list Commit;
  index : gmap string blob;
  worktree : gmap string blob
}.

(** The [commit] argument of the read operations: ['HEAD'] or the
    identifier of a commit, which is modelled by the commit's position
    in the history. *)
Inductive rev : Type :=
  | HEAD
  | Sha (n : nat).

(** [Repo.init(repo_path)]: the repository [__init__] creates when the
    path does not exist. *)
Definition Repo_init : Repo :=
  {| history := []; index := ∅; worktree := ∅ |}.

(** [__init__]: [existing] is the repository found at [repo_path], if
    the path exists. *)
Definition GitDB_init (existing : option Repo) : Repo :=
  match existing with
  | None => Repo_init
  | Some r => r
  end.

(** [self.repo.commit(commit)]; [None] when the name does not resolve. *)
Definition Repo_commit (r : Repo) (commit : rev) : option Commit :=
  match commit with
  | HEAD => last (history r)
  | Sha n => history r !! n
  end.

(** The tree of the latest commit; empty before the first commit. *)
Definition head_tree (r : Repo) : gmap string blob :=
  match last (history r) with
  | Some c => tree c
  | None => ∅
  end.

(** ** Methods of [GitDB]

    A method takes the repository and returns its result, or the
    exception it raised, with the repository it leaves behind.  The
    [print] calls of the source write diagnostics to standard output
    and are not part of the model. *)
Definition M (A : Type) : Type := Repo → result A * Repo.

Global Instance M_ret : MRet M := λ A a r, (Ok a, r).

Global Instance M_bind : MBind M := λ A B k c r,
  match c r with
  | (Ok a, r') => k a r'
  | (Raise e, r') => (Raise e, r')
  end.

(** A pure Python operation inside a method. *)
Definition lift {A} (x : result A) : M A := λ r, (x, r).

(** The [try] body of [_load_file]. *)
Definition load_body (r : Repo) (filename : string) (commit : rev)
  : result json :=
  match Repo_commit r commit with
  | None => Raise BadName
  | Some commit_obj =>
      match tree commit_obj !! filename with
      | None => Raise KeyError
      | Some file_data =>
          match json_loads file_data with
          | None => Raise JSONDecodeError
          | Some j => Ok j
          end
      end
  end.

(** [_load_file]: both [except] clauses return the empty dictionary. *)
Definition _load_file (filename : string) (commit : rev) : M json :=
  λ r, match load_body r filename commit with
       | Ok j => (Ok j, r)
       | Raise e =>
           if decide (e ∈ [KeyError; GitCommandError; FileNotFoundError])
           then (Ok (JObj []), r)
           else (Ok (JObj []), r)
       end.

(** [_save_file]: write the file, stage it, commit the index.  The four
    library calls of the source are outside any [try]; the model is of
    the writes that go through (a file name the working directory can
    hold, a value that [json.dump] accepts) and says nothing of a write
    that raises. *)
Definition _save_file (filename : string) (data : json)
    (commit_message : string) : M unit :=
  λ r, let file_data := json_dumps data in
       let worktree' := <[filename := file_data]> (worktree r) in
       let index' := <[filename := file_data]> (index r) in
       (Ok (),
        {| history := history r ++ [mkCommit index' commit_message];
           index := index';
           worktree := worktree' |}).

Definition create_record (filename record_id : string) (record_data : json)
  : M bool :=
  data ← _load_file filename HEAD;
  present ← lift (py_contains record_id data);
  if (present : bool) then mret false
  else
    data' ← lift (py_setitem record_id record_data data);
    _save_file filename data' ("Create record " +:+ record_id);;
    mret true.

Definition read_record (filename record_id : string) (commit : rev)
  : M json :=
  data ← _load_file filename commit;
  record ← lift (py_get record_id data);
  mret record.

Definition update_record (filename record_id : string) (record_data : json)
  : M bool :=
  data ← _load_file filename HEAD;
  present ← lift (py_contains record_id data);
  if negb present then mret false
  else
    data' ← lift (py_setitem record_id record_data data);
    _save_file filename data' ("Update record " +:+ record_id);;
    mret true.

Definition delete_record (filename record_id : string) : M bool :=
  data ← _load_file filename HEAD;
  present ← lift (py_contains record_id data);
  if negb present then mret false
  else
    data' ← lift (py_delitem record_id data);
    _save_file filename data' ("Delete record " +:+ record_id);;
    mret true.

Definition list_records (filename : string) (commit : rev)
  : M (list string) :=
  data ← _load_file filename commit;
  lift (py_keys data).

End GitDB.

(** ** A caller's sequence of writes *)

Section Callers.
Context {codec : JsonCodec}.

(** One mutating call with its arguments. *)
Inductive mutation : Type :=
  | Create (filename record_id : string) (record_data : json)
  | Update (filename record_id : string) (record_data : json)
  | Delete (filename record_id : string).

Definition call (m : mutation) : M bool :=
  match m with
  | Create f k v => create_record f k v
  | Update f k v => update_record f k v
  | Delete f k => delete_record f k
  end.

Definition mutation_file (m : mutation) : string :=
  match m with Create f _ _ | Update f _ _ | Delete f _ => f end.

Definition mutation_id (m : mutation) : string :=
  match m with Create _ k _ | Update _ k _ | Delete _ k => k end.

(** The calls made one after the other, whatever each one returns (a
    caller that catches what a call raises and goes on). *)
Definition call_all (ms : list mutation) (r : Repo) : Repo :=
  foldl (λ r m, (call m r).2) r ms.

(** The repository [r'] is [r] with exactly one more commit. *)
Definition one_new_snapshot (r r' : Repo) : Prop :=
  ∃ c, history r' = history r ++ [c].

(** What a mutating call may leave behind: one more commit when it
    returned [True], the repository as it was otherwise. *)
Definition mutation_outcome (r : Repo) (out : result bool * Repo) : Prop :=
  match out with
  | (Ok true, r') => one_new_snapshot r r'
  | (_, r') => r' = r
  end.

(** The index holds no change that the latest commit does not have. *)
Definition clean (r : Repo) : Prop := index r = head_tree r.

(** Every committed or staged file that parses holds a JSON object. *)
Definition tree_ok (t : gmap string blob) : Prop :=
  ∀ f b j, t !! f = Some b → json_loads b = Some j → ∃ d, j = JObj d.

Definition documents_ok (r : Repo) : Prop :=
  (∀ c, c ∈ history r → tree_ok (tree c)) ∧ tree_ok (index r).

End Callers.

(** ** Example repositories

    The run at the end of the source file, and two repositories used to
    evaluate the methods: one that stores a record whose value is
    [None], one whose document was committed with text that is not
    JSON. *)

Module Examples.
#[local] Existing Instance text_codec.

Definition users : string := "users.json".

Definition alice : json := JObj [("name", JStr "Alice"); ("age", JInt 30)].
Definition bob : json := JObj [("name", JStr "Bob"); ("age", JInt 25)].
Definition john : json := JObj [("name", JStr "John"); ("age", JInt 22)].
Definition alice' : json :=
  JObj [("name", JStr "Alice"); ("age", JInt 31);
        ("skills", JArr [JStr "python"; JStr "git"])].

Definition db0 : Repo := GitDB_init None.
Definition db1 : Repo := (create_record users "user1" alice db0).2.
Definition db2 : Repo := (create_record users "user2" bob db1).2.
Definition db3 : Repo := (create_record users "user3" john db2).2.
Definition db4 : Repo := (update_record users "user1" alice' db3).2.
Definition db5 : Repo := (delete_record users "user2" db4).2.

Definition null_db : Repo := (create_record users "user1" JNull db0).2.

Definition garbled_tree : gmap string text :=
  {[ users := Garbled "{ user1: " ]}.

Definition garbled_db : Repo :=
  {| history := [mkCommit garbled_tree "Import users"];
     index := garbled_tree;
     worktree := garbled_tree |}.

End Examples.

(** ** A mutating call seen from the document

    The three writers differ in the test they make on the loaded
    dictionary, in the change they make to it and in the commit message
    they pass to [_save_file]. *)

Section Writers.
Context {codec : JsonCodec}.

(** The test that lets the call go on to write: [create_record] wants
    the id absent, the other two want it present. *)
Definition accepts (m : mutation) (d : Dict.t) : bool :=
  match m with
  | Create _ k _ => negb (Dict.contains k d)
  | Update _ k _ | Delete _ k => Dict.contains k d
  end.

(** The dictionary the call saves. *)
Definition apply_mutation (m : mutation) (d : Dict.t) : Dict.t :=
  match m with
  | Create _ k v | Update _ k v => Dict.set k v d
  | Delete _ k => Dict.del k d
  end.

(** The commit message of the call. *)
Definition mutation_message (m : mutation) : string :=
  match m with
  | Create _ k _ => "Create record " +:+ k
  | Update _ k _ => "Update record " +:+ k
  | Delete _ k => "Delete record " +:+ k
  end.

(** The calls of a sequence that returned [True], in order. *)
Fixpoint committed (ms : list mutation) (r : Repo) : list mutation :=
  match ms with
  | [] => []
  | m :: ms' =>
      match (call m r).1 with
      | Ok true => m :: committed ms' (call m r).2
      | _ => committed ms' (call m r).2
      end
  end.

(** Every committed or staged JSON object has pairwise distinct keys. *)
Definition tree_keys_ok (t : gmap string blob) : Prop :=
  ∀ f b d, t !! f = Some b → json_loads b = Some (JObj d) →
           NoDup (Dict.keys d).

Definition keys_ok (r : Repo) : Prop :=
  (∀ c, c ∈ history r → tree_keys_ok (tree c)) ∧ tree_keys_ok (index r).

End Writers.

(** Repositories whose document was not written by [GitDB]: a JSON
    list and a JSON number committed under the name of the document. *)
Module Foreign.
#[local] Existing Instance text_codec.

Definition list_tree : gmap string text :=
  {[ Examples.users := Valid (JArr [JStr "user1"; JStr "user2"]) ]}.

Definition list_db : Repo :=
  {| history := [mkCommit list_tree "Import users"];
     index := list_tree;
     worktree := list_tree |}.

Definition number_tree : gmap string text :=
  {[ Examples.users := Valid (JInt 7) ]}.

Definition number_db : Repo :=
  {| history := [mkCommit number_tree "Import users"];
     index := number_tree;
     worktree := number_tree |}.

End Foreign.

(** A repository opened with a change to another document staged but
    not committed: the latest commit has order [o1] as [1], the index
    and the working file have it as [999]. *)
Module Staged.
#[local] Existing Instance text_codec.

Definition orders : string := "orders.json".

Definition committed_tree : gmap string text :=
  {[ orders := Valid (JObj [("o1", JInt 1)]) ]}.

Definition staged_tree : gmap string text :=
  {[ orders := Valid (JObj [("o1", JInt 999)]) ]}.

Definition staged_db : Repo :=
  GitDB_init (Some {| history := [mkCommit committed_tree "Import orders"];
                      index := staged_tree;
                      worktree := staged_tree |}).

End Staged.

(** * Properties *)

(** ** Dictionaries *)

Module DictFacts.
Import Dict.

Lemma contains_true k d : contains k d = true ↔ k ∈ keys d.
Proof.
  unfold contains, keys. induction d as [|[k' v'] d IH]; simpl.
  - split; [done | by intros ?%elem_of_nil].
  - destruct (decide (k = k')) as [->|Hne].
    + split; [intros _; apply list_elem_of_here | done].
    + rewrite IH. split.
      * by apply list_elem_of_further.
      * intros [?|?]%elem_of_cons; [done | assumption].
Qed.

Lemma contains_false k d : contains k d = false ↔ k ∉ keys d.
Proof.
  rewrite <- contains_true. destruct (contains k d); split; done.
Qed.

Lemma get_is_Some k d : is_Some (get k d) ↔ k ∈ keys d.
Proof.
  rewrite <- contains_true. unfold contains.
  destruct (get k d); split; first [done | by eexists | by intros [? ?]].
Qed.

Lemma get_None k d : get k d = None ↔ k ∉ keys d.
Proof.
  rewrite <- get_is_Some, eq_None_not_Some. done.
Qed.

Lemma get_set_eq k v d : get k (set k v d) = Some v.
Proof.
  induction d as [|[k' v'] d IH]; simpl.
  - by rewrite decide_True.
  - destruct (decide (k = k')) as [->|Hne]; simpl.
    + by rewrite decide_True.
    + by rewrite decide_False.
Qed.

Lemma get_set_ne k k' v d : k' ≠ k → get k' (set k v d) = get k' d.
Proof.
  intros Hne. induction d as [|[k0 v0] d IH]; simpl.
  - by rewrite decide_False.
  - destruct (decide (k = k0)) as [->|Hk]; simpl.
    + by rewrite !decide_False.
    + destruct (decide (k' = k0)); [done | apply IH].
Qed.

Lemma get_del_eq k d : get k (del k d) = None.
Proof.
  induction d as [|[k0 v0] d IH]; simpl; [done|].
  destruct (decide (k = k0)) as [->|Hk]; simpl; [done|].
  by rewrite decide_False.
Qed.

Lemma get_del_ne k k' d : k' ≠ k → get k' (del k d) = get k' d.
Proof.
  intros Hne. induction d as [|[k0 v0] d IH]; simpl; [done|].
  destruct (decide (k = k0)) as [->|Hk]; simpl.
  - by rewrite decide_False.
  - destruct (decide (k' = k0)); [done | apply IH].
Qed.

(** A new key is listed last, an existing key keeps its place. *)
Lemma keys_set_new k v d : k ∉ keys d → keys (set k v d) = keys d ++ [k].
Proof.
  unfold keys. induction d as [|[k0 v0] d IH]; [done|].
  rewrite fmap_cons. intros [Hne Hk]%not_elem_of_cons. simpl in Hne.
  cbn [set]. rewrite decide_False by done.
  rewrite fmap_cons, IH by done. done.
Qed.

Lemma keys_set_old k v d : k ∈ keys d → keys (set k v d) = keys d.
Proof.
  unfold keys. induction d as [|[k0 v0] d IH].
  - by intros ?%elem_of_nil.
  - rewrite fmap_cons. intros Hk. cbn [set].
    destruct (decide (k = k0)) as [->|Hne]; [done|].
    apply elem_of_cons in Hk as [?|Hk]; [done|].
    rewrite !fmap_cons, IH by done. done.
Qed.

Lemma keys_del k d : keys (del k d) = filter (λ k', k' ≠ k) (keys d).
Proof.
  unfold keys. induction d as [|[k0 v0] d IH]; [done|].
  rewrite fmap_cons. cbn [del fst].
  destruct (decide (k = k0)) as [->|Hne].
  - rewrite filter_cons_False by (intros H; by apply H). done.
  - rewrite filter_cons_True by congruence. by rewrite fmap_cons, IH.
Qed.

(** The operations keep the keys of a dictionary distinct. *)
Lemma NoDup_set k v d : NoDup (keys d) → NoDup (keys (set k v d)).
Proof.
  intros Hd. destruct (decide (k ∈ keys d)) as [Hin|Hout].
  - by rewrite keys_set_old.
  - rewrite keys_set_new by done. apply NoDup_app. split_and!; [done | | apply NoDup_singleton].
    intros x Hx ->%list_elem_of_singleton. done.
Qed.

Lemma NoDup_del k d : NoDup (keys d) → NoDup (keys (del k d)).
Proof. rewrite keys_del. apply NoDup_filter. Qed.

End DictFacts.

(** ** Loading and saving *)

Section Storage.
Context {codec : JsonCodec}.
Implicit Types (r : Repo) (f k : string) (c : rev) (d : Dict.t).

Ltac run := unfold mbind, M_bind, mret, M_ret, lift; simpl.

(** [_load_file] never raises and never touches the repository. *)
Lemma load_file_total f c r : ∃ j, _load_file f c r = (Ok j, r).
Proof.
  unfold _load_file. destruct (load_body r f c) as [j|e]; [by exists j|].
  exists (JObj []). by destruct (decide _).
Qed.

Lemma load_file_body f c r j :
  load_body r f c = Ok j → _load_file f c r = (Ok j, r).
Proof. unfold _load_file. by intros ->. Qed.

Lemma load_file_raise f c r e :
  load_body r f c = Raise e → _load_file f c r = (Ok (JObj []), r).
Proof. unfold _load_file. intros ->. by destruct (decide _). Qed.

(** Two repositories in which the [try] body does the same load the same. *)
Lemma load_file_ext f f' c c' r r' :
  load_body r f c = load_body r' f' c' →
  (_load_file f c r).1 = (_load_file f' c' r').1.
Proof.
  unfold _load_file. intros ->.
  destruct (load_body r' f' c'); [done|]. by destruct (decide _).
Qed.

Lemma save_file_history f j msg r :
  history (_save_file f j msg r).2
  = history r ++ [mkCommit (<[f := json_dumps j]> (index r)) msg].
Proof. done. Qed.

(** What was saved is what the next load at HEAD returns. *)
Lemma save_file_load f j msg r :
  let r' := (_save_file f j msg r).2 in
  _load_file f HEAD r' = (Ok j, r').
Proof.
  intros r'. apply load_file_body. unfold load_body, Repo_commit.
  subst r'. rewrite save_file_history, last_snoc. simpl.
  by rewrite lookup_insert_eq, json_loads_dumps.
Qed.

Lemma head_tree_save f j msg r :
  head_tree (_save_file f j msg r).2 = <[f := json_dumps j]> (index r).
Proof. unfold head_tree. by rewrite save_file_history, last_snoc. Qed.

Lemma clean_save f j msg r : clean (_save_file f j msg r).2.
Proof. unfold clean. by rewrite head_tree_save. Qed.

(** Saving one file leaves the other files of a clean repository as
    the latest commit had them. *)
Lemma save_file_load_other f f' j msg r :
  clean r → f' ≠ f →
  (_load_file f' HEAD (_save_file f j msg r).2).1 = (_load_file f' HEAD r).1.
Proof.
  intros Hclean Hne. unfold _load_file, load_body, Repo_commit.
  rewrite save_file_history, last_snoc. simpl.
  rewrite lookup_insert_ne by done. rewrite Hclean. unfold head_tree.
  destruct (last (history r)) as [c0|]; simpl.
  - destruct (tree c0 !! f') as [b|]; [|done].
    by destruct (json_loads b).
  - by rewrite lookup_empty.
Qed.

(** Commits are only ever appended. *)
Lemma save_file_old_commit f f' j msg r n :
  n < length (history r) →
  load_body (_save_file f j msg r).2 f' (Sha n) = load_body r f' (Sha n).
Proof.
  intros Hn. unfold load_body, Repo_commit.
  by rewrite save_file_history, lookup_app_l.
Qed.

(** The three writers, once the loaded document is known to be a
    dictionary. *)
Lemma create_record_dict f k v r d :
  _load_file f HEAD r = (Ok (JObj d), r) →
  create_record f k v r
  = if Dict.contains k d then (Ok false, r)
    else (Ok true,
          (_save_file f (JObj (Dict.set k v d)) ("Create record " +:+ k) r).2).
Proof.
  intros Hload. unfold create_record. run. rewrite Hload. simpl.
  by destruct (Dict.contains k d).
Qed.

Lemma update_record_dict f k v r d :
  _load_file f HEAD r = (Ok (JObj d), r) →
  update_record f k v r
  = if Dict.contains k d
    then (Ok true,
          (_save_file f (JObj (Dict.set k v d)) ("Update record " +:+ k) r).2)
    else (Ok false, r).
Proof.
  intros Hload. unfold update_record. run. rewrite Hload. simpl.
  by destruct (Dict.contains k d).
Qed.

Lemma delete_record_dict f k r d :
  _load_file f HEAD r = (Ok (JObj d), r) →
  delete_record f k r
  = if Dict.contains k d
    then (Ok true,
          (_save_file f (JObj (Dict.del k d)) ("Delete record " +:+ k) r).2)
    else (Ok false, r).
Proof.
  intros Hload. unfold delete_record. run. rewrite Hload. simpl.
  by destruct (Dict.contains k d).
Qed.

Lemma read_record_dict f k c r d :
  _load_file f c r = (Ok (JObj d), r) →
  read_record f k c r = (Ok (default JNull (Dict.get k d)), r).
Proof. intros Hload. unfold read_record. run. by rewrite Hload. Qed.

Lemma list_records_dict f c r d :
  _load_file f c r = (Ok (JObj d), r) →
  list_records f c r = (Ok (Dict.keys d), r).
Proof. intros Hload. unfold list_records. run. by rewrite Hload. Qed.

(** The readers depend on the repository through [_load_file] only. *)
Lemma read_record_ext f k c r r' :
  (_load_file f c r).1 = (_load_file f c r').1 →
  (read_record f k c r).1 = (read_record f k c r').1.
Proof.
  destruct (load_file_total f c r) as [j Hj].
  destruct (load_file_total f c r') as [j' Hj'].
  unfold read_record. run. rewrite Hj, Hj'. simpl. intros [= ->].
  by destruct (py_get k j').
Qed.

Lemma list_records_ext f c r r' :
  (_load_file f c r).1 = (_load_file f c r').1 →
  (list_records f c r).1 = (list_records f c r').1.
Proof.
  destruct (load_file_total f c r) as [j Hj].
  destruct (load_file_total f c r') as [j' Hj'].
  unfold list_records. run. rewrite Hj, Hj'. simpl. by intros [= ->].
Qed.

(** A mutating call either commits one dictionary for its file and
    returns [True], or leaves the repository alone and returns
    something else. *)
Lemma call_cases m r :
  (∃ d msg, call m r
            = (Ok true, (_save_file (mutation_file m) (JObj d) msg r).2))
  ∨ ((call m r).1 ≠ Ok true ∧ (call m r).2 = r).
Proof.
  destruct (load_file_total (mutation_file m) HEAD r) as [j Hj].
  destruct m as [f k v|f k v|f k]; simpl in *.
  - unfold create_record. run. rewrite Hj. simpl.
    destruct j as [| | |s|l|d]; simpl; try (by right).
    + destruct (str_contains k s); by right.
    + destruct (existsb _ l); by right.
    + destruct (Dict.contains k d); [by right | left; by eexists _, _].
  - unfold update_record. run. rewrite Hj. simpl.
    destruct j as [| | |s|l|d]; simpl; try (by right).
    + destruct (str_contains k s); by right.
    + destruct (existsb _ l); by right.
    + destruct (Dict.contains k d); [left; by eexists _, _ | by right].
  - unfold delete_record. run. rewrite Hj. simpl.
    destruct j as [| | |s|l|d]; simpl; try (by right).
    + destruct (str_contains k s); by right.
    + destruct (existsb _ l); by right.
    + destruct (Dict.contains k d) eqn:Hk; simpl; rewrite ?Hk;
        [left; by eexists _, _ | by right].
Qed.

End Storage.

(** ** Invariants of the repository *)

Section Invariants.
Context {codec : JsonCodec}.
Implicit Types (r : Repo) (f k : string) (c : rev) (m : mutation).

Lemma clean_init : clean Repo_init.
Proof. done. Qed.

Lemma clean_call m r : clean r → clean (call m r).2.
Proof.
  intros Hr. destruct (call_cases m r) as [(d & msg & ->)|[_ ->]]; [|done].
  apply clean_save.
Qed.

Lemma clean_call_all ms r : clean r → clean (call_all ms r).
Proof.
  revert r. induction ms as [|m ms IH]; intros r Hr; [done|].
  apply IH. by apply clean_call.
Qed.

Lemma documents_ok_init : documents_ok Repo_init.
Proof.
  split.
  - by intros c ?%elem_of_nil.
  - intros f b j Hf. simpl in Hf. by rewrite lookup_empty in Hf.
Qed.

Lemma tree_ok_insert f d (t : gmap string blob) :
  tree_ok t → tree_ok (<[f := json_dumps (JObj d)]> t).
Proof.
  intros Ht f' b j Hf' Hb. destruct (decide (f = f')) as [->|Hne].
  - rewrite lookup_insert_eq in Hf'. injection Hf' as <-.
    rewrite json_loads_dumps in Hb. injection Hb as <-. by exists d.
  - rewrite lookup_insert_ne in Hf' by done. by eapply Ht.
Qed.

Lemma documents_ok_call m r : documents_ok r → documents_ok (call m r).2.
Proof.
  intros [Hh Hi].
  destruct (call_cases m r) as [(d & msg & ->)|[_ ->]]; [|done].
  cbn [snd]. split.
  - intros c. rewrite save_file_history.
    intros [Hc| ->%list_elem_of_singleton]%elem_of_app; [by apply Hh|].
    by apply tree_ok_insert.
  - by apply tree_ok_insert.
Qed.

Lemma documents_ok_call_all ms r :
  documents_ok r → documents_ok (call_all ms r).
Proof.
  revert r. induction ms as [|m ms IH]; intros r Hr; [done|].
  apply IH. by apply documents_ok_call.
Qed.

(** In such a repository every load returns a dictionary. *)
Lemma documents_ok_load f c r :
  documents_ok r → ∃ d, _load_file f c r = (Ok (JObj d), r).
Proof.
  intros [Hh _]. unfold _load_file, load_body.
  destruct (Repo_commit r c) as [c0|] eqn:Hc; [|by exists []].
  destruct (tree c0 !! f) as [b|] eqn:Hf; [|by exists []].
  destruct (json_loads b) as [j|] eqn:Hb; [|by exists []].
  assert (c0 ∈ history r) as Hin.
  { destruct c; simpl in Hc.
    - rewrite last_lookup in Hc. by eapply list_elem_of_lookup_2.
    - by eapply list_elem_of_lookup_2. }
  destruct (Hh c0 Hin f b j Hf Hb) as [d ->]. by exists d.
Qed.

(** A mutating call appends to the history and keeps what the old
    commits hold. *)
Lemma call_old_commit m r f n :
  n < length (history r) →
  n < length (history (call m r).2)
  ∧ load_body (call m r).2 f (Sha n) = load_body r f (Sha n).
Proof.
  intros Hn. destruct (call_cases m r) as [(d & msg & ->)|[_ ->]]; [|done].
  cbn [snd]. split; [|by apply save_file_old_commit].
  rewrite save_file_history, length_app. simpl. lia.
Qed.

Lemma call_all_old_commit ms r f n :
  n < length (history r) →
  load_body (call_all ms r) f (Sha n) = load_body r f (Sha n).
Proof.
  revert r. induction ms as [|m ms IH]; intros r Hn; [done|]. simpl.
  destruct (call_old_commit m r f n Hn) as [Hn' <-]. by apply IH.
Qed.

End Invariants.

(** ** The operations of the record store *)

Section RecordStore.
Context {codec : JsonCodec}.
Implicit Types (r : Repo) (f k : string) (c : rev) (d : Dict.t)
  (v : json) (m : mutation).

(** C1. When the document of [f] at the latest commit is [d] and [k] is
    not one of its ids, [create_record f k v] returns [True], and
    reading [k] at HEAD of the repository it leaves returns [v]. *)
Theorem create_then_read f k v r d :
  _load_file f HEAD r = (Ok (JObj d), r) →
  k ∉ Dict.keys d →
  ∃ r', create_record f k v r = (Ok true, r')
        ∧ read_record f k HEAD r' = (Ok v, r').
Proof.
  intros Hload Hk%DictFacts.contains_false.
  rewrite (create_record_dict f k v r d Hload), Hk.
  eexists; split; [done|].
  rewrite (read_record_dict f k HEAD _ _ (save_file_load _ _ _ _)).
  by rewrite DictFacts.get_set_eq.
Qed.

(** C2, as the code has it. [read_record] raises nothing on a
    document: it returns the stored value of [k], and [None] when [k]
    is absent.  [None] therefore differs from every stored value other
    than [None] itself (an empty object, list or string included); a
    record stored as [None] reads like an absent one. *)
Theorem read_absent_is_none f k c r d :
  _load_file f c r = (Ok (JObj d), r) →
  (k ∉ Dict.keys d → read_record f k c r = (Ok JNull, r))
  ∧ (∀ v, Dict.get k d = Some v →
          read_record f k c r = (Ok v, r)
          ∧ (v ≠ JNull → read_record f k c r ≠ (Ok JNull, r))).
Proof.
  intros Hload. rewrite (read_record_dict f k c r d Hload). split.
  - intros Hk%DictFacts.get_None. by rewrite Hk.
  - intros v ->. simpl. split; [done|]. congruence.
Qed.

(** C3, as the code has it. When the file exists at the commit and its
    content is not valid JSON, [_load_file] returns the empty
    dictionary, exactly as for a missing file: reading any id returns
    [None] and listing returns no id; nothing is raised. *)
Theorem invalid_json_loads_empty f k c r commit_obj file_data :
  Repo_commit r c = Some commit_obj →
  tree commit_obj !! f = Some file_data →
  json_loads file_data = None →
  load_body r f c = Raise JSONDecodeError
  ∧ _load_file f c r = (Ok (JObj []), r)
  ∧ read_record f k c r = (Ok JNull, r)
  ∧ list_records f c r = (Ok [], r).
Proof.
  intros Hc Hf Hb.
  assert (load_body r f c = Raise JSONDecodeError) as Hbody.
  { unfold load_body. by rewrite Hc, Hf, Hb. }
  assert (_load_file f c r = (Ok (JObj []), r)) as Hload
    by (by eapply load_file_raise).
  split_and!; [done | done | |].
  - by rewrite (read_record_dict f k c r [] Hload).
  - by rewrite (list_records_dict f c r [] Hload).
Qed.

(** C4. When [k] is already in the document of [f] at the latest
    commit, with value [v0], [create_record f k v] returns [False]
    (the duplicate signal), the repository is left as it was, so no
    commit is added, and reading [k] still returns [v0]. *)
Theorem create_duplicate f k v r d v0 :
  _load_file f HEAD r = (Ok (JObj d), r) →
  Dict.get k d = Some v0 →
  ∃ r', create_record f k v r = (Ok false, r')
        ∧ r' = r
        ∧ history r' = history r
        ∧ read_record f k HEAD r' = (Ok v0, r').
Proof.
  intros Hload Hk. exists r.
  rewrite (create_record_dict f k v r d Hload).
  rewrite (read_record_dict f k HEAD r d Hload).
  unfold Dict.contains. by rewrite Hk.
Qed.

(** C5. When [k] is not in the document of [f] at the latest commit,
    [update_record] and [delete_record] both return [False] (the
    not-found signal) and leave the repository, and so its history, as
    it was. *)
Theorem update_delete_absent f k v r d :
  _load_file f HEAD r = (Ok (JObj d), r) →
  k ∉ Dict.keys d →
  update_record f k v r = (Ok false, r)
  ∧ delete_record f k r = (Ok false, r)
  ∧ history (update_record f k v r).2 = history r
  ∧ history (delete_record f k r).2 = history r.
Proof.
  intros Hload Hk%DictFacts.contains_false.
  rewrite (update_record_dict f k v r d Hload).
  rewrite (delete_record_dict f k r d Hload).
  by rewrite Hk.
Qed.

(** C6. When [k] is in the document of [f] at the latest commit,
    [delete_record f k] returns [True]; in the repository it leaves,
    [k] is no longer an id of the document at HEAD and reading it
    returns [None], the not-found signal. *)
Theorem delete_then_read f k r d :
  _load_file f HEAD r = (Ok (JObj d), r) →
  k ∈ Dict.keys d →
  ∃ r' d', delete_record f k r = (Ok true, r')
           ∧ _load_file f HEAD r' = (Ok (JObj d'), r')
           ∧ (k ∉ Dict.keys d')
           ∧ read_record f k HEAD r' = (Ok JNull, r').
Proof.
  intros Hload Hk%DictFacts.contains_true.
  rewrite (delete_record_dict f k r d Hload), Hk.
  eexists _, (Dict.del k d). split; [done|].
  split; [apply save_file_load|].
  split; [apply DictFacts.get_None, DictFacts.get_del_eq|].
  rewrite (read_record_dict f k HEAD _ _ (save_file_load _ _ _ _)).
  by rewrite DictFacts.get_del_eq.
Qed.

(** C7. A mutating call that returns [True] leaves the repository
    with exactly one more commit; one that returns [False] (or raises)
    leaves the repository as it was; [read_record] and [list_records]
    always leave the repository as it was. *)
Theorem snapshot_per_mutation f k v c r :
  mutation_outcome r (create_record f k v r)
  ∧ mutation_outcome r (update_record f k v r)
  ∧ mutation_outcome r (delete_record f k r)
  ∧ (read_record f k c r).2 = r
  ∧ (list_records f c r).2 = r.
Proof.
  assert (∀ m, mutation_outcome r (call m r)) as Hcall.
  { intros m. destruct (call_cases m r) as [(d & msg & ->)|[Hres Hr]].
    - eexists. apply save_file_history.
    - destruct (call m r) as [[[]|e] r']; simpl in *; done. }
  split_and!.
  - apply (Hcall (Create f k v)).
  - apply (Hcall (Update f k v)).
  - apply (Hcall (Delete f k)).
  - destruct (load_file_total f c r) as [j Hj].
    unfold read_record, mbind, M_bind, lift. rewrite Hj. simpl.
    by destruct (py_get k j).
  - destruct (load_file_total f c r) as [j Hj].
    unfold list_records, mbind, M_bind, lift. by rewrite Hj.
Qed.

(** C8. For a commit [n] of the history of [r], reading a record or
    listing a document at [n] gives the same result after any sequence
    of mutating calls as it gives in [r]. *)
Theorem history_immutable ms f k n r :
  n < length (history r) →
  (read_record f k (Sha n) (call_all ms r)).1
  = (read_record f k (Sha n) r).1
  ∧ (list_records f (Sha n) (call_all ms r)).1
    = (list_records f (Sha n) r).1.
Proof.
  intros Hn.
  pose proof (load_file_ext f f (Sha n) (Sha n) _ _
                (call_all_old_commit ms r f n Hn)) as Hload.
  split; [by apply read_record_ext | by apply list_records_ext].
Qed.


(** C10, as the code has it. After a mutating call on [f] and [k]
    that returned [True], the document of [f] at the new HEAD maps
    every id other than [k] as the document at the old HEAD did.  Every
    other file has in the new latest commit the content the index held,
    since [_save_file] commits the whole index; so every other file
    loads at the new HEAD what it loaded at the old one when the index
    held nothing but the latest commit. *)
Theorem mutation_frame m r r' :
  call m r = (Ok true, r') →
  (∃ d d', _load_file (mutation_file m) HEAD r = (Ok (JObj d), r)
           ∧ _load_file (mutation_file m) HEAD r' = (Ok (JObj d'), r')
           ∧ ∀ k', k' ≠ mutation_id m → Dict.get k' d' = Dict.get k' d)
  ∧ (∀ f', f' ≠ mutation_file m → head_tree r' !! f' = index r !! f')
  ∧ (clean r →
     ∀ f', f' ≠ mutation_file m →
           (_load_file f' HEAD r').1 = (_load_file f' HEAD r).1).
Proof.
  intros Hcall.
  destruct (load_file_total (mutation_file m) HEAD r) as [j Hj].
  assert (∃ d d' msg,
             j = JObj d
             ∧ r' = (_save_file (mutation_file m) (JObj d') msg r).2
             ∧ ∀ k', k' ≠ mutation_id m → Dict.get k' d' = Dict.get k' d)
    as (d & d' & msg & -> & -> & Hframe).
  { destruct m as [f k v|f k v|f k]; simpl in *.
    - destruct j as [| | |s|l|d];
        try (revert Hcall; unfold create_record, mbind, M_bind, lift;
             rewrite Hj; simpl; try destruct (str_contains _ _);
             try destruct (existsb _ _); by intros [=]).
      rewrite (create_record_dict f k v r d Hj) in Hcall.
      destruct (Dict.contains k d); [done|]. injection Hcall as <-.
      eexists d, _, _. split_and!; [done | done |].
      intros k' Hk'. by apply DictFacts.get_set_ne.
    - destruct j as [| | |s|l|d];
        try (revert Hcall; unfold update_record, mbind, M_bind, lift;
             rewrite Hj; simpl; try destruct (str_contains _ _);
             try destruct (existsb _ _); by intros [=]).
      rewrite (update_record_dict f k v r d Hj) in Hcall.
      destruct (Dict.contains k d); [|done]. injection Hcall as <-.
      eexists d, _, _. split_and!; [done | done |].
      intros k' Hk'. by apply DictFacts.get_set_ne.
    - destruct j as [| | |s|l|d];
        try (revert Hcall; unfold delete_record, mbind, M_bind, lift;
             rewrite Hj; simpl; try destruct (str_contains _ _);
             try destruct (existsb _ _); by intros [=]).
      rewrite (delete_record_dict f k r d Hj) in Hcall.
      destruct (Dict.contains k d); [|done]. injection Hcall as <-.
      eexists d, _, _. split_and!; [done | done |].
      intros k' Hk'. by apply DictFacts.get_del_ne. }
  split_and!.
  - exists d, d'. split_and!; [done | apply save_file_load | done].
  - intros f' Hne. rewrite head_tree_save. by apply lookup_insert_ne.
  - intros Hclean f' Hne. by apply save_file_load_other.
Qed.

End RecordStore.

(** ** The properties on the example repositories *)

Section Runs.
Import Examples.
#[local] Existing Instance text_codec.

(** The run of the source file: three creates, an update, a delete. *)
Example run_list : list_records users HEAD db5 = (Ok ["user1"; "user3"], db5).
Proof. vm_compute. reflexivity. Qed.

Example run_read : read_record users "user1" HEAD db5 = (Ok alice', db5).
Proof. vm_compute. reflexivity. Qed.

Example run_history :
  message <$> history db5
  = ["Create record user1"; "Create record user2"; "Create record user3";
     "Update record user1"; "Delete record user2"].
Proof. vm_compute. reflexivity. Qed.

Example run_old_snapshot :
  read_record users "user2" (Sha 1) db5 = (Ok bob, db5).
Proof. vm_compute. reflexivity. Qed.

Lemma load_db2 :
  _load_file users HEAD db2
  = (Ok (JObj [("user1", alice); ("user2", bob)]), db2).
Proof. vm_compute. reflexivity. Defined.

Lemma create_then_read_witness :
  _load_file users HEAD db2
  = (Ok (JObj [("user1", alice); ("user2", bob)]), db2)
  ∧ ("user3" ∉ Dict.keys [("user1", alice); ("user2", bob)])
  ∧ ∃ r', create_record users "user3" john db2 = (Ok true, r')
          ∧ read_record users "user3" HEAD r' = (Ok john, r').
Proof.
  assert ("user3" ∉ Dict.keys [("user1", alice); ("user2", bob)]) as Hk
    by (apply DictFacts.contains_false; reflexivity).
  refine (conj load_db2 (conj Hk _)).
  exact (create_then_read users "user3" john db2 _ load_db2 Hk).
Defined.

(** C2, as the spec states it, fails on a record stored as [None]:
    ["user1"] is in the document, ["user2"] is not, and the two reads
    return the same. *)
Lemma read_null_like_absent :
  _load_file users HEAD null_db = (Ok (JObj [("user1", JNull)]), null_db)
  ∧ Dict.get "user1" [("user1", JNull)] = Some JNull
  ∧ ("user2" ∉ Dict.keys [("user1", JNull)])
  ∧ read_record users "user1" HEAD null_db = (Ok JNull, null_db)
  ∧ read_record users "user2" HEAD null_db = (Ok JNull, null_db).
Proof.
  split_and!; try (vm_compute; reflexivity).
  apply DictFacts.contains_false. reflexivity.
Qed.

Lemma read_absent_is_none_witness :
  _load_file users HEAD db2
  = (Ok (JObj [("user1", alice); ("user2", bob)]), db2)
  ∧ (("user3" ∉ Dict.keys [("user1", alice); ("user2", bob)] →
      read_record users "user3" HEAD db2 = (Ok JNull, db2))
     ∧ (∀ v, Dict.get "user3" [("user1", alice); ("user2", bob)] = Some v →
             read_record users "user3" HEAD db2 = (Ok v, db2)
             ∧ (v ≠ JNull →
                read_record users "user3" HEAD db2 ≠ (Ok JNull, db2)))).
Proof.
  split; [exact load_db2|].
  exact (read_absent_is_none users "user3" HEAD db2 _ load_db2).
Defined.

(** C3, as the spec states it, fails on a document that is not JSON:
    the [try] body raises, and [_load_file] returns the empty
    dictionary as it does for a file that is missing. *)
Lemma garbled_document_loads_empty :
  load_body garbled_db users HEAD = Raise JSONDecodeError
  ∧ _load_file users HEAD garbled_db = (Ok (JObj []), garbled_db)
  ∧ _load_file "orders.json" HEAD garbled_db = (Ok (JObj []), garbled_db)
  ∧ read_record users "user1" HEAD garbled_db = (Ok JNull, garbled_db)
  ∧ list_records users HEAD garbled_db = (Ok [], garbled_db).
Proof. split_and!; vm_compute; reflexivity. Qed.

Lemma invalid_json_loads_empty_witness :
  Repo_commit garbled_db HEAD = Some (mkCommit garbled_tree "Import users")
  ∧ garbled_tree !! users = Some (Garbled "{ user1: ")
  ∧ json_loads (Garbled "{ user1: ") = None
  ∧ (load_body garbled_db users HEAD = Raise JSONDecodeError
     ∧ _load_file users HEAD garbled_db = (Ok (JObj []), garbled_db)
     ∧ read_record users "user1" HEAD garbled_db = (Ok JNull, garbled_db)
     ∧ list_records users HEAD garbled_db = (Ok [], garbled_db)).
Proof.
  assert (Repo_commit garbled_db HEAD
          = Some (mkCommit garbled_tree "Import users")) as H1
    by reflexivity.
  assert (garbled_tree !! users = Some (Garbled "{ user1: ")) as H2
    by (vm_compute; reflexivity).
  assert (json_loads (Garbled "{ user1: ") = None) as H3 by reflexivity.
  refine (conj H1 (conj H2 (conj H3 _))).
  exact (invalid_json_loads_empty users "user1" HEAD garbled_db _ _ H1 H2 H3).
Defined.

Lemma create_duplicate_witness :
  _load_file users HEAD db2
  = (Ok (JObj [("user1", alice); ("user2", bob)]), db2)
  ∧ Dict.get "user2" [("user1", alice); ("user2", bob)] = Some bob
  ∧ ∃ r', create_record users "user2" john db2 = (Ok false, r')
          ∧ r' = db2
          ∧ history r' = history db2
          ∧ read_record users "user2" HEAD r' = (Ok bob, r').
Proof.
  refine (conj load_db2 (conj eq_refl _)).
  exact (create_duplicate users "user2" john db2 _ bob load_db2 eq_refl).
Defined.

Lemma update_delete_absent_witness :
  _load_file users HEAD db2
  = (Ok (JObj [("user1", alice); ("user2", bob)]), db2)
  ∧ ("user3" ∉ Dict.keys [("user1", alice); ("user2", bob)])
  ∧ (update_record users "user3" john db2 = (Ok false, db2)
     ∧ delete_record users "user3" db2 = (Ok false, db2)
     ∧ history (update_record users "user3" john db2).2 = history db2
     ∧ history (delete_record users "user3" db2).2 = history db2).
Proof.
  assert ("user3" ∉ Dict.keys [("user1", alice); ("user2", bob)]) as Hk
    by (apply DictFacts.contains_false; reflexivity).
  refine (conj load_db2 (conj Hk _)).
  exact (update_delete_absent users "user3" john db2 _ load_db2 Hk).
Defined.

Lemma delete_then_read_witness :
  _load_file users HEAD db2
  = (Ok (JObj [("user1", alice); ("user2", bob)]), db2)
  ∧ "user2" ∈ Dict.keys [("user1", alice); ("user2", bob)]
  ∧ ∃ r' d', delete_record users "user2" db2 = (Ok true, r')
             ∧ _load_file users HEAD r' = (Ok (JObj d'), r')
             ∧ ("user2" ∉ Dict.keys d')
             ∧ read_record users "user2" HEAD r' = (Ok JNull, r').
Proof.
  assert ("user2" ∈ Dict.keys [("user1", alice); ("user2", bob)]) as Hk
    by (apply DictFacts.contains_true; reflexivity).
  refine (conj load_db2 (conj Hk _)).
  exact (delete_then_read users "user2" db2 _ load_db2 Hk).
Defined.

Lemma history_immutable_witness :
  1 < length (history db2)
  ∧ (read_record users "user2" (Sha 1)
       (call_all [Update users "user2" john; Delete users "user2"] db2)).1
    = (read_record users "user2" (Sha 1) db2).1
  ∧ (list_records users (Sha 1)
       (call_all [Update users "user2" john; Delete users "user2"] db2)).1
    = (list_records users (Sha 1) db2).1.
Proof.
  assert (1 < length (history db2)) as Hn by (vm_compute; lia).
  split; [exact Hn|].
  exact (history_immutable
           [Update users "user2" john; Delete users "user2"]
           users "user2" 1 db2 Hn).
Defined.


Lemma mutation_frame_witness :
  call (Delete users "user2") db4 = (Ok true, db5)
  ∧ clean db4
  ∧ ((∃ d d', _load_file users HEAD db4 = (Ok (JObj d), db4)
              ∧ _load_file users HEAD db5 = (Ok (JObj d'), db5)
              ∧ ∀ k', k' ≠ "user2" → Dict.get k' d' = Dict.get k' d)
     ∧ (∀ f', f' ≠ users → head_tree db5 !! f' = index db4 !! f')
     ∧ (clean db4 →
        ∀ f', f' ≠ users →
              (_load_file f' HEAD db5).1 = (_load_file f' HEAD db4).1)).
Proof.
  assert (clean db4) as Hclean
    by (apply (clean_call_all
                 [Create users "user1" alice; Create users "user2" bob;
                  Create users "user3" john; Update users "user1" alice']
                 db0 clean_init)).
  assert (call (Delete users "user2") db4 = (Ok true, db5)) as Hcall
    by (vm_compute; reflexivity).
  refine (conj Hcall (conj Hclean _)).
  exact (mutation_frame (Delete users "user2") db4 db5 Hcall).
Defined.

(** C10, as the claim states it, fails when the store is opened on a
    repository with a change staged for another document: a create on
    [users.json] returns [True] and commits the staged [orders.json],
    so order [o1] reads [1] at the old HEAD and [999] at the new one. *)
Lemma staged_change_is_committed :
  Staged.orders ≠ users
  ∧ read_record Staged.orders "o1" HEAD Staged.staged_db
    = (Ok (JInt 1), Staged.staged_db)
  ∧ (create_record users "user1" alice Staged.staged_db).1 = Ok true
  ∧ (read_record Staged.orders "o1" HEAD
       (create_record users "user1" alice Staged.staged_db).2).1
    = Ok (JInt 999)
  ∧ (_load_file Staged.orders HEAD
       (create_record users "user1" alice Staged.staged_db).2).1
    ≠ (_load_file Staged.orders HEAD Staged.staged_db).1.
Proof.
  split_and!; try (vm_compute; reflexivity).
  - discriminate.
  - vm_compute. discriminate.
Qed.

End Runs.

(** ** The writers, seen from the document *)

Section WriterFacts.
Context {codec : JsonCodec}.
Implicit Types (r : Repo) (f k : string) (c : rev) (d : Dict.t)
  (v j : json) (m : mutation).

(** On a dictionary, a mutating call is its test followed by one save. *)
Lemma call_dict m r d :
  _load_file (mutation_file m) HEAD r = (Ok (JObj d), r) →
  call m r
  = if accepts m d
    then (Ok true,
          (_save_file (mutation_file m) (JObj (apply_mutation m d))
             (mutation_message m) r).2)
    else (Ok false, r).
Proof.
  intros Hload. destruct m as [f k v|f k v|f k]; simpl in *.
  - rewrite (create_record_dict f k v r d Hload).
    by destruct (Dict.contains k d).
  - by rewrite (update_record_dict f k v r d Hload).
  - by rewrite (delete_record_dict f k r d Hload).
Qed.

(** On anything else it returns [False] or raises, and writes nothing. *)
Lemma call_other m r j :
  _load_file (mutation_file m) HEAD r = (Ok j, r) →
  (∀ d, j ≠ JObj d) →
  (call m r).1 ≠ Ok true ∧ (call m r).2 = r.
Proof.
  intros Hload Hj.
  destruct m as [f k v|f k v|f k]; simpl in *;
    unfold create_record, update_record, delete_record,
      mbind, M_bind, mret, M_ret, lift;
    rewrite Hload; simpl;
    destruct j as [| | |s|l|d]; simpl; try done;
    try (by destruct (str_contains k s));
    try (by destruct (existsb _ l));
    by destruct (Hj d).
Qed.

Lemma call_success m r r' :
  call m r = (Ok true, r') →
  ∃ d, _load_file (mutation_file m) HEAD r = (Ok (JObj d), r)
       ∧ accepts m d = true
       ∧ r' = (_save_file (mutation_file m) (JObj (apply_mutation m d))
                 (mutation_message m) r).2.
Proof.
  intros Hcall.
  destruct (load_file_total (mutation_file m) HEAD r) as [j Hj].
  assert (∃ d, j = JObj d) as [d ->].
  { destruct j as [| | |s|l|d]; [..|by exists d];
      (destruct (call_other m r _ Hj) as [Hne _]; [done|];
       by rewrite Hcall in Hne). }
  exists d. rewrite (call_dict m r d Hj) in Hcall.
  destruct (accepts m d); [|done]. by injection Hcall as <-.
Qed.

(** Writing the value a key already has changes nothing. *)
Lemma set_same k v d : Dict.get k d = Some v → Dict.set k v d = d.
Proof.
  induction d as [|[k0 v0] d IH]; simpl; [done|].
  destruct (decide (k = k0)) as [->|Hne].
  - by intros [= ->].
  - intros Hk. by rewrite IH.
Qed.

(** HEAD is the last commit of the history. *)
Lemma load_body_head r f :
  load_body r f HEAD = load_body r f (Sha (pred (length (history r)))).
Proof. unfold load_body, Repo_commit. by rewrite last_lookup. Qed.

Lemma load_keys_ok f c r d :
  keys_ok r → _load_file f c r = (Ok (JObj d), r) → NoDup (Dict.keys d).
Proof.
  intros [Hh _]. unfold _load_file, load_body.
  destruct (Repo_commit r c) as [c0|] eqn:Hc;
    [|intros [= <-]; apply NoDup_nil_2].
  destruct (tree c0 !! f) as [b|] eqn:Hf;
    [|intros [= <-]; apply NoDup_nil_2].
  destruct (json_loads b) as [j|] eqn:Hb;
    [|intros [= <-]; apply NoDup_nil_2].
  intros [= ->].
  assert (c0 ∈ history r) as Hin.
  { destruct c; simpl in Hc.
    - rewrite last_lookup in Hc. by eapply list_elem_of_lookup_2.
    - by eapply list_elem_of_lookup_2. }
  by eapply (Hh c0 Hin f b d).
Qed.

Lemma keys_ok_init : keys_ok Repo_init.
Proof.
  split.
  - by intros c ?%elem_of_nil.
  - intros f b d Hf. simpl in Hf. by rewrite lookup_empty in Hf.
Qed.

Lemma tree_keys_ok_insert f d (t : gmap string blob) :
  NoDup (Dict.keys d) → tree_keys_ok t →
  tree_keys_ok (<[f := json_dumps (JObj d)]> t).
Proof.
  intros Hd Ht f' b d' Hf' Hb. destruct (decide (f = f')) as [->|Hne].
  - rewrite lookup_insert_eq in Hf'. injection Hf' as <-.
    rewrite json_loads_dumps in Hb. by injection Hb as <-.
  - rewrite lookup_insert_ne in Hf' by done. by eapply Ht.
Qed.

Lemma NoDup_apply_mutation m d :
  NoDup (Dict.keys d) → NoDup (Dict.keys (apply_mutation m d)).
Proof.
  destruct m; simpl;
    [apply DictFacts.NoDup_set | apply DictFacts.NoDup_set
     | apply DictFacts.NoDup_del].
Qed.

Lemma keys_ok_call m r : keys_ok r → keys_ok (call m r).2.
Proof.
  intros Hr. destruct (call_cases m r) as [(d0 & msg & Hcall)|[_ ->]]; [|done].
  destruct (call_success m r _ Hcall) as (d & Hload & _ & Hr').
  rewrite Hcall. cbn [snd]. rewrite Hr'.
  pose proof (NoDup_apply_mutation m d (load_keys_ok _ _ _ _ Hr Hload))
    as Hd.
  destruct Hr as [Hh Hi]. split.
  - intros c. rewrite save_file_history.
    intros [Hc| ->%list_elem_of_singleton]%elem_of_app; [by apply Hh|].
    by apply tree_keys_ok_insert.
  - by apply tree_keys_ok_insert.
Qed.

Lemma keys_ok_call_all ms r : keys_ok r → keys_ok (call_all ms r).
Proof.
  revert r. induction ms as [|m ms IH]; intros r Hr; [done|].
  apply IH. by apply keys_ok_call.
Qed.

End WriterFacts.

(** ** Further properties of the methods *)

Section MoreProperties.
Context {codec : JsonCodec}.
Implicit Types (r : Repo) (f k : string) (c : rev) (d : Dict.t)
  (v j : json) (m : mutation).

(** X1. When [k] is in the document of [f] at the latest commit,
    [update_record f k v] returns [True]; reading [k] at the new HEAD
    returns [v], and the ids are listed in the order they had. *)
Theorem update_then_read f k v r d :
  _load_file f HEAD r = (Ok (JObj d), r) →
  k ∈ Dict.keys d →
  ∃ r', update_record f k v r = (Ok true, r')
        ∧ read_record f k HEAD r' = (Ok v, r')
        ∧ list_records f HEAD r' = (Ok (Dict.keys d), r').
Proof.
  intros Hload Hk.
  rewrite (update_record_dict f k v r d Hload).
  rewrite (proj2 (DictFacts.contains_true k d) Hk).
  eexists; split; [done|].
  rewrite (read_record_dict f k HEAD _ _ (save_file_load _ _ _ _)).
  rewrite (list_records_dict f HEAD _ _ (save_file_load _ _ _ _)).
  by rewrite DictFacts.get_set_eq, DictFacts.keys_set_old.
Qed.

(** X2. A created id is listed last: after a successful
    [create_record f k v], [list_records] returns the ids listed before
    followed by [k]. *)
Theorem create_appends_id f k v r d :
  _load_file f HEAD r = (Ok (JObj d), r) →
  k ∉ Dict.keys d →
  ∃ r', create_record f k v r = (Ok true, r')
        ∧ list_records f HEAD r' = (Ok (Dict.keys d ++ [k]), r').
Proof.
  intros Hload Hk.
  rewrite (create_record_dict f k v r d Hload).
  rewrite (proj2 (DictFacts.contains_false k d) Hk).
  eexists; split; [done|].
  rewrite (list_records_dict f HEAD _ _ (save_file_load _ _ _ _)).
  by rewrite DictFacts.keys_set_new.
Qed.

(** X3. Deleting [k] removes it from the listing and keeps the other
    ids in their order. *)
Theorem delete_keeps_order f k r d :
  _load_file f HEAD r = (Ok (JObj d), r) →
  k ∈ Dict.keys d →
  ∃ r', delete_record f k r = (Ok true, r')
        ∧ list_records f HEAD r'
          = (Ok (filter (λ k', k' ≠ k) (Dict.keys d)), r').
Proof.
  intros Hload Hk.
  rewrite (delete_record_dict f k r d Hload).
  rewrite (proj2 (DictFacts.contains_true k d) Hk).
  eexists; split; [done|].
  rewrite (list_records_dict f HEAD _ _ (save_file_load _ _ _ _)).
  by rewrite DictFacts.keys_del.
Qed.

(** X4. When the commit name does not resolve, or the commit has no
    file [f], [_load_file] returns the empty dictionary: reading any id
    returns [None], listing returns no id, and nothing is raised. *)
Theorem load_missing_empty f k c r :
  Repo_commit r c = None
  ∨ (∃ commit_obj, Repo_commit r c = Some commit_obj
                   ∧ tree commit_obj !! f = None) →
  _load_file f c r = (Ok (JObj []), r)
  ∧ read_record f k c r = (Ok JNull, r)
  ∧ list_records f c r = (Ok [], r).
Proof.
  intros Hmiss.
  assert (∃ e, load_body r f c = Raise e) as [e He].
  { unfold load_body. destruct Hmiss as [->|(co & -> & ->)]; by eexists. }
  pose proof (load_file_raise f c r e He) as Hload.
  split_and!; [done| |].
  - by rewrite (read_record_dict f k c r [] Hload).
  - by rewrite (list_records_dict f c r [] Hload).
Qed.

(** X5. When the [try] body of [_load_file] raises at HEAD (no commit
    yet, no such file, or content that is not JSON), [create_record]
    returns [True] and the document at the new HEAD holds the new
    record and nothing else, so content that did not parse is
    overwritten; [update_record] and [delete_record] return [False]. *)
Theorem create_on_unloadable f k v r e :
  load_body r f HEAD = Raise e →
  (∃ r', create_record f k v r = (Ok true, r')
         ∧ _load_file f HEAD r' = (Ok (JObj [(k, v)]), r'))
  ∧ update_record f k v r = (Ok false, r)
  ∧ delete_record f k r = (Ok false, r).
Proof.
  intros He. pose proof (load_file_raise f HEAD r e He) as Hload.
  rewrite (create_record_dict f k v r [] Hload).
  rewrite (update_record_dict f k v r [] Hload).
  rewrite (delete_record_dict f k r [] Hload). simpl.
  split; [|done]. eexists; split; [done|]. apply save_file_load.
Qed.

(** X6. When the file holds valid JSON that is not an object,
    [read_record] and [list_records] raise [AttributeError] and leave
    the repository as it was. *)
Theorem non_dict_read_raises f k c r j :
  load_body r f c = Ok j →
  (∀ d, j ≠ JObj d) →
  read_record f k c r = (Raise AttributeError, r)
  ∧ list_records f c r = (Raise AttributeError, r).
Proof.
  intros Hj%load_file_body Hnd.
  unfold read_record, list_records, mbind, M_bind, mret, M_ret, lift.
  rewrite Hj. destruct j as [| | | | |d]; simpl; try done.
  by destruct (Hnd d).
Qed.

(** X7. When the file holds valid JSON that is not an object at HEAD,
    no mutating call returns [True] and none changes the repository:
    such a file is never rewritten. *)
Theorem non_dict_never_written m r j :
  load_body r (mutation_file m) HEAD = Ok j →
  (∀ d, j ≠ JObj d) →
  (call m r).1 ≠ Ok true ∧ (call m r).2 = r.
Proof.
  intros Hj%load_file_body Hnd. by eapply call_other.
Qed.

(** X8. After a mutating call that returned [True], the index is the
    tree of the new latest commit and the working file has the
    committed content: nothing is left staged or unsaved. *)
Theorem nothing_left_staged m r r' :
  call m r = (Ok true, r') →
  index r' = head_tree r'
  ∧ worktree r' !! mutation_file m = head_tree r' !! mutation_file m
  ∧ is_Some (head_tree r' !! mutation_file m).
Proof.
  intros (d & _ & _ & ->)%call_success.
  rewrite head_tree_save. simpl. by rewrite !lookup_insert_eq.
Qed.

(** X9. In a repository that was created by [GitDB] and whose commits
    were all made by its methods, every document at every commit name
    is a dictionary, so [read_record] and [list_records] never raise:
    for every file, id and commit name they return a value. *)
Theorem api_reads_never_raise ms f k c :
  let r := call_all ms (GitDB_init None) in
  (∃ d, _load_file f c r = (Ok (JObj d), r))
  ∧ (∃ v, read_record f k c r = (Ok v, r))
  ∧ (∃ l, list_records f c r = (Ok l, r)).
Proof.
  intros r.
  assert (documents_ok r) as Hok
    by apply documents_ok_call_all, documents_ok_init.
  destruct (documents_ok_load f c r Hok) as [d Hd].
  split_and!.
  - by exists d.
  - eexists. by apply read_record_dict.
  - eexists. by apply list_records_dict.
Qed.

(** X10. In such a repository the ids listed for any file at any
    commit name are pairwise distinct. *)
Theorem api_ids_distinct ms f c :
  let r := call_all ms (GitDB_init None) in
  ∃ l, list_records f c r = (Ok l, r) ∧ NoDup l.
Proof.
  intros r.
  assert (documents_ok r) as Hok
    by apply documents_ok_call_all, documents_ok_init.
  assert (keys_ok r) as Hkeys by apply keys_ok_call_all, keys_ok_init.
  destruct (documents_ok_load f c r Hok) as [d Hd].
  exists (Dict.keys d). split; [by apply list_records_dict|].
  by eapply load_keys_ok.
Qed.

(** X11. The commit messages after a sequence of mutating calls are
    the messages before, followed by one message per call that returned
    [True], in call order: the history grows by exactly the successful
    calls, and rejected calls leave no trace. *)
Theorem history_log ms r :
  message <$> history (call_all ms r)
  = (message <$> history r) ++ (mutation_message <$> committed ms r)
  ∧ length (history (call_all ms r))
    = length (history r) + length (committed ms r).
Proof.
  assert (message <$> history (call_all ms r)
          = (message <$> history r) ++ (mutation_message <$> committed ms r))
    as Hlog.
  { revert r. induction ms as [|m ms IH]; intros r; simpl.
    - by rewrite app_nil_r.
    - rewrite IH. destruct (call m r) as [res r'] eqn:Hcall. cbn [fst snd].
      assert (res ≠ Ok true → r' = r) as Hsame.
      { destruct (call_cases m r) as [(d0 & msg & Heq)|[_ Heq]];
          rewrite Hcall in Heq; [by injection Heq as -> _ | done]. }
      destruct res as [[|]|e]; try (rewrite Hsame by done; done).
      destruct (call_success m r r' Hcall) as (d & _ & _ & ->).
      rewrite save_file_history, fmap_app, fmap_cons.
      by rewrite <- app_assoc. }
  split; [done|].
  apply (f_equal length) in Hlog.
  by rewrite length_app, !length_fmap in Hlog.
Qed.

(** X12. The commit made by a successful [create_record] has the
    position the history had as its length; reading the new id at that
    commit returns the created value after any later sequence of
    mutating calls, whatever they do to the id. *)
Theorem created_value_stays_readable ms f k v r d :
  _load_file f HEAD r = (Ok (JObj d), r) →
  k ∉ Dict.keys d →
  (read_record f k (Sha (length (history r)))
     (call_all ms (create_record f k v r).2)).1 = Ok v.
Proof.
  intros Hload Hk.
  rewrite (create_record_dict f k v r d Hload).
  rewrite (proj2 (DictFacts.contains_false k d) Hk). cbn [snd].
  set (r' := (_save_file f (JObj (Dict.set k v d)) _ r).2).
  assert (length (history r') = S (length (history r))) as Hlen.
  { subst r'. rewrite save_file_history, length_app. simpl. lia. }
  assert (load_body (call_all ms r') f (Sha (length (history r)))
          = load_body r' f HEAD) as Hbody.
  { rewrite call_all_old_commit by lia.
    by rewrite load_body_head, Hlen. }
  pose proof (load_file_ext _ _ _ _ _ _ Hbody) as Hsame.
  subst r'. rewrite save_file_load in Hsame.
  destruct (load_file_total f (Sha (length (history r)))
              (call_all ms (_save_file f (JObj (Dict.set k v d))
                              ("Create record " +:+ k) r).2))
    as [j Hj].
  rewrite Hj in Hsame. simpl in Hsame. injection Hsame as ->.
  rewrite (read_record_dict _ _ _ _ _ Hj). simpl.
  by rewrite DictFacts.get_set_eq.
Qed.

(** X13. [update_record] with the value the record already has still
    returns [True] and still adds a commit; the document at the new
    HEAD is the document as it was. *)
Theorem noop_update_commits f k v r d :
  _load_file f HEAD r = (Ok (JObj d), r) →
  Dict.get k d = Some v →
  ∃ r', update_record f k v r = (Ok true, r')
        ∧ one_new_snapshot r r'
        ∧ _load_file f HEAD r' = (Ok (JObj d), r').
Proof.
  intros Hload Hk.
  rewrite (update_record_dict f k v r d Hload).
  unfold Dict.contains. rewrite Hk.
  eexists; split; [done|]. split.
  - eexists. apply save_file_history.
  - rewrite <- (set_same k v d Hk) at 2. apply save_file_load.
Qed.

(** X14. A store opened on a new path is empty: at every commit name
    every read returns [None] and every listing is empty,
    [update_record] and [delete_record] return [False] and change
    nothing, and [create_record] returns [True] for every id. *)
Theorem fresh_store_empty f k v c :
  let r := GitDB_init None in
  read_record f k c r = (Ok JNull, r)
  ∧ list_records f c r = (Ok [], r)
  ∧ update_record f k v r = (Ok false, r)
  ∧ delete_record f k r = (Ok false, r)
  ∧ (create_record f k v r).1 = Ok true.
Proof.
  intros r.
  assert (∀ c', _load_file f c' r = (Ok (JObj []), r)) as Hload.
  { intros c'. apply (load_file_raise f c' r BadName).
    unfold load_body. by destruct c'. }
  rewrite (read_record_dict f k c r [] (Hload c)).
  rewrite (list_records_dict f c r [] (Hload c)).
  rewrite (update_record_dict f k v r [] (Hload HEAD)).
  rewrite (delete_record_dict f k r [] (Hload HEAD)).
  by rewrite (create_record_dict f k v r [] (Hload HEAD)).
Qed.

(** X15. Deleting the only record of a document leaves the file in the
    repository, holding the empty object: the [try] body of
    [_load_file] still finds and parses it, and the listing is empty. *)
Theorem delete_last_record f k r d :
  _load_file f HEAD r = (Ok (JObj d), r) →
  Dict.keys d = [k] →
  ∃ r', delete_record f k r = (Ok true, r')
        ∧ load_body r' f HEAD = Ok (JObj [])
        ∧ list_records f HEAD r' = (Ok [], r').
Proof.
  intros Hload Hkeys.
  destruct d as [|[k0 v0] [|? ?]]; try done.
  injection Hkeys as ->.
  assert (Dict.contains k [(k, v0)] = true) as Hin
    by (unfold Dict.contains; simpl; by rewrite decide_True).
  assert (Dict.del k [(k, v0)] = []) as Hdel
    by (simpl; by rewrite decide_True).
  rewrite (delete_record_dict f k r _ Hload), Hin, Hdel.
  eexists; split; [done|]. split.
  - unfold load_body, Repo_commit. rewrite save_file_history, last_snoc.
    simpl. by rewrite lookup_insert_eq, json_loads_dumps.
  - by rewrite (list_records_dict f HEAD _ _ (save_file_load _ _ _ _)).
Qed.

(** X16. A deleted id can be created again: [delete_record] followed
    by [create_record] on the same id both return [True], the read
    returns the new value, and the id is now listed last. *)
Theorem delete_then_create f k v r d :
  _load_file f HEAD r = (Ok (JObj d), r) →
  k ∈ Dict.keys d →
  ∃ r1 r2, delete_record f k r = (Ok true, r1)
           ∧ create_record f k v r1 = (Ok true, r2)
           ∧ read_record f k HEAD r2 = (Ok v, r2)
           ∧ list_records f HEAD r2
             = (Ok (filter (λ k', k' ≠ k) (Dict.keys d) ++ [k]), r2).
Proof.
  intros Hload Hk.
  rewrite (delete_record_dict f k r d Hload).
  rewrite (proj2 (DictFacts.contains_true k d) Hk).
  eexists _, _. split; [done|].
  pose proof (DictFacts.get_del_eq k d) as Hgone.
  rewrite (create_record_dict f k v _ _ (save_file_load _ _ _ _)).
  unfold Dict.contains at 1. rewrite Hgone. split; [done|].
  rewrite (read_record_dict f k HEAD _ _ (save_file_load _ _ _ _)).
  rewrite (list_records_dict f HEAD _ _ (save_file_load _ _ _ _)).
  rewrite DictFacts.get_set_eq.
  rewrite DictFacts.keys_set_new by by apply DictFacts.get_None.
  by rewrite DictFacts.keys_del.
Qed.

End MoreProperties.

(** ** The further properties on the example repositories *)

Section MoreRuns.
Import Examples Foreign.
#[local] Existing Instance text_codec.

Lemma absent_db2 : "user3" ∉ Dict.keys [("user1", alice); ("user2", bob)].
Proof. apply DictFacts.contains_false. reflexivity. Defined.

Lemma present_db2 : "user2" ∈ Dict.keys [("user1", alice); ("user2", bob)].
Proof. apply DictFacts.contains_true. reflexivity. Defined.

Lemma load_db1 :
  _load_file users HEAD db1 = (Ok (JObj [("user1", alice)]), db1).
Proof. vm_compute. reflexivity. Defined.

Lemma update_then_read_witness :
  _load_file users HEAD db2
  = (Ok (JObj [("user1", alice); ("user2", bob)]), db2)
  ∧ ("user2" ∈ Dict.keys [("user1", alice); ("user2", bob)])
  ∧ ∃ r', update_record users "user2" john db2 = (Ok true, r')
          ∧ read_record users "user2" HEAD r' = (Ok john, r')
          ∧ list_records users HEAD r'
            = (Ok (Dict.keys [("user1", alice); ("user2", bob)]), r').
Proof.
  refine (conj load_db2 (conj present_db2 _)).
  exact (update_then_read users "user2" john db2 _ load_db2 present_db2).
Defined.

Lemma create_appends_id_witness :
  _load_file users HEAD db2
  = (Ok (JObj [("user1", alice); ("user2", bob)]), db2)
  ∧ ("user3" ∉ Dict.keys [("user1", alice); ("user2", bob)])
  ∧ ∃ r', create_record users "user3" john db2 = (Ok true, r')
          ∧ list_records users HEAD r'
            = (Ok (Dict.keys [("user1", alice); ("user2", bob)]
                   ++ ["user3"]), r').
Proof.
  refine (conj load_db2 (conj absent_db2 _)).
  exact (create_appends_id users "user3" john db2 _ load_db2 absent_db2).
Defined.

Lemma delete_keeps_order_witness :
  _load_file users HEAD db2
  = (Ok (JObj [("user1", alice); ("user2", bob)]), db2)
  ∧ ("user2" ∈ Dict.keys [("user1", alice); ("user2", bob)])
  ∧ ∃ r', delete_record users "user2" db2 = (Ok true, r')
          ∧ list_records users HEAD r'
            = (Ok (filter (λ k', k' ≠ "user2")
                     (Dict.keys [("user1", alice); ("user2", bob)])), r').
Proof.
  refine (conj load_db2 (conj present_db2 _)).
  exact (delete_keeps_order users "user2" db2 _ load_db2 present_db2).
Defined.

Lemma load_missing_empty_witness :
  (Repo_commit db2 (Sha 7) = None
   ∨ (∃ commit_obj, Repo_commit db2 (Sha 7) = Some commit_obj
                    ∧ tree commit_obj !! users = None))
  ∧ (_load_file users (Sha 7) db2 = (Ok (JObj []), db2)
     ∧ read_record users "user1" (Sha 7) db2 = (Ok JNull, db2)
     ∧ list_records users (Sha 7) db2 = (Ok [], db2)).
Proof.
  assert (Repo_commit db2 (Sha 7) = None
          ∨ (∃ commit_obj, Repo_commit db2 (Sha 7) = Some commit_obj
                           ∧ tree commit_obj !! users = None)) as H
    by (left; reflexivity).
  refine (conj H _).
  exact (load_missing_empty users "user1" (Sha 7) db2 H).
Defined.

Lemma create_on_unloadable_witness :
  load_body garbled_db users HEAD = Raise JSONDecodeError
  ∧ ((∃ r', create_record users "user1" alice garbled_db = (Ok true, r')
            ∧ _load_file users HEAD r'
              = (Ok (JObj [("user1", alice)]), r'))
     ∧ update_record users "user1" alice garbled_db = (Ok false, garbled_db)
     ∧ delete_record users "user1" garbled_db = (Ok false, garbled_db)).
Proof.
  assert (load_body garbled_db users HEAD = Raise JSONDecodeError) as H
    by (vm_compute; reflexivity).
  refine (conj H _).
  exact (create_on_unloadable users "user1" alice garbled_db _ H).
Defined.

Lemma non_dict_read_raises_witness :
  load_body list_db users HEAD = Ok (JArr [JStr "user1"; JStr "user2"])
  ∧ (∀ d, JArr [JStr "user1"; JStr "user2"] ≠ JObj d)
  ∧ (read_record users "user1" HEAD list_db = (Raise AttributeError, list_db)
     ∧ list_records users HEAD list_db = (Raise AttributeError, list_db)).
Proof.
  assert (load_body list_db users HEAD
          = Ok (JArr [JStr "user1"; JStr "user2"])) as H
    by (vm_compute; reflexivity).
  assert (∀ d, JArr [JStr "user1"; JStr "user2"] ≠ JObj d) as Hnd
    by (intros d; discriminate).
  refine (conj H (conj Hnd _)).
  exact (non_dict_read_raises users "user1" HEAD list_db _ H Hnd).
Defined.

Lemma non_dict_never_written_witness :
  load_body number_db (mutation_file (Create users "user1" alice)) HEAD
  = Ok (JInt 7)
  ∧ (∀ d, JInt 7 ≠ JObj d)
  ∧ ((call (Create users "user1" alice) number_db).1 ≠ Ok true
     ∧ (call (Create users "user1" alice) number_db).2 = number_db).
Proof.
  assert (load_body number_db (mutation_file (Create users "user1" alice))
            HEAD = Ok (JInt 7)) as H
    by (vm_compute; reflexivity).
  assert (∀ d, JInt 7 ≠ JObj d) as Hnd by (intros d; discriminate).
  refine (conj H (conj Hnd _)).
  exact (non_dict_never_written (Create users "user1" alice) number_db _
           H Hnd).
Defined.

Lemma nothing_left_staged_witness :
  call (Delete users "user2") db4 = (Ok true, db5)
  ∧ (index db5 = head_tree db5
     ∧ worktree db5 !! mutation_file (Delete users "user2")
       = head_tree db5 !! mutation_file (Delete users "user2")
     ∧ is_Some (head_tree db5 !! mutation_file (Delete users "user2"))).
Proof.
  assert (call (Delete users "user2") db4 = (Ok true, db5)) as H
    by (vm_compute; reflexivity).
  refine (conj H _).
  exact (nothing_left_staged (Delete users "user2") db4 db5 H).
Defined.

Lemma created_value_stays_readable_witness :
  _load_file users HEAD db2
  = (Ok (JObj [("user1", alice); ("user2", bob)]), db2)
  ∧ ("user3" ∉ Dict.keys [("user1", alice); ("user2", bob)])
  ∧ (read_record users "user3" (Sha (length (history db2)))
       (call_all [Update users "user3" bob; Delete users "user3"]
          (create_record users "user3" john db2).2)).1 = Ok john.
Proof.
  refine (conj load_db2 (conj absent_db2 _)).
  exact (created_value_stays_readable
           [Update users "user3" bob; Delete users "user3"]
           users "user3" john db2 _ load_db2 absent_db2).
Defined.

Lemma noop_update_commits_witness :
  _load_file users HEAD db2
  = (Ok (JObj [("user1", alice); ("user2", bob)]), db2)
  ∧ Dict.get "user2" [("user1", alice); ("user2", bob)] = Some bob
  ∧ ∃ r', update_record users "user2" bob db2 = (Ok true, r')
          ∧ one_new_snapshot db2 r'
          ∧ _load_file users HEAD r'
            = (Ok (JObj [("user1", alice); ("user2", bob)]), r').
Proof.
  refine (conj load_db2 (conj eq_refl _)).
  exact (noop_update_commits users "user2" bob db2 _ load_db2 eq_refl).
Defined.

Lemma delete_last_record_witness :
  _load_file users HEAD db1 = (Ok (JObj [("user1", alice)]), db1)
  ∧ Dict.keys [("user1", alice)] = ["user1"]
  ∧ ∃ r', delete_record users "user1" db1 = (Ok true, r')
          ∧ load_body r' users HEAD = Ok (JObj [])
          ∧ list_records users HEAD r' = (Ok [], r').
Proof.
  refine (conj load_db1 (conj eq_refl _)).
  exact (delete_last_record users "user1" db1 _ load_db1 eq_refl).
Defined.

Lemma delete_then_create_witness :
  _load_file users HEAD db2
  = (Ok (JObj [("user1", alice); ("user2", bob)]), db2)
  ∧ ("user2" ∈ Dict.keys [("user1", alice); ("user2", bob)])
  ∧ ∃ r1 r2, delete_record users "user2" db2 = (Ok true, r1)
             ∧ create_record users "user2" john r1 = (Ok true, r2)
             ∧ read_record users "user2" HEAD r2 = (Ok john, r2)
             ∧ list_records users HEAD r2
               = (Ok (filter (λ k', k' ≠ "user2")
                        (Dict.keys [("user1", alice); ("user2", bob)])
                      ++ ["user2"]), r2).
Proof.
  refine (conj load_db2 (conj present_db2 _)).
  exact (delete_then_create users "user2" john db2 _ load_db2 present_db2).
Defined.

End MoreRuns.
